(** * Performance RNN model: conditioning expansion and configuration registry

    A shallow embedding of [magenta/models/performance_rnn/performance_model.py]:
    the two methods of [PerformanceRnnModel], the constructor of
    [PerformanceRnnConfig] and the [default_configs] dictionary, followed by
    the properties established about them. *)

From Stdlib Require Import ZArith List Lia.
From Corelib Require Import PrimFloat.
From stdpp Require Import base option list gmap strings.

Local Open Scope Z_scope.
Local Open Scope string_scope.

(** ** Python values *)

(** The objects the two methods handle without looking inside them.  A
    conditioning argument is any object; the code only ever tests it with
    [is not None]. *)
#[local] Set Warnings "-register-all".
Inductive pyobj : Type :=
| PyNone
| PyInt (z : Z)
| PyFloat (f : float)
| PyStr (s : string)
| PyTuple (items : list pyobj)
| PyList (items : list pyobj).
#[local] Set Warnings "register-all".

(** [x is not None] *)
Definition is_not_None (x : pyobj) : bool :=
  match x with
  | PyNone => false
  | _ => true
  end.

(** [l * n] for a list [l] and an integer [n]: [n] copies of [l] joined
    together, and the empty list when [n] is zero or negative. *)
Definition list_mul {A : Type} (l : list A) (n : Z) : list A :=
  concat (replicate (Z.to_nat n) l).

(** [len(l)], a Python integer. *)
Definition len {A : Type} (l : list A) : Z := Z.of_nat (length l).

(** ** Exceptions and outcomes *)

Inductive exn : Type :=
| ValueError
| KeyError (key : string)
| IndexError
| OtherError (name : string).

Inductive outcome (A : Type) : Type :=
| Returns (a : A)
| Raises (e : exn).
Arguments Returns {A} a.
Arguments Raises {A} e.

(** [l[0]] on a list: the first element, [IndexError] on the empty list. *)
Definition getitem0 {A : Type} (l : list A) : outcome A :=
  match l with
  | x :: _ => Returns x
  | [] => Raises IndexError
  end.

(** [d[k]] on a dictionary: the value stored under [k], [KeyError] when
    there is none. *)
Definition dict_getitem {V : Type} (d : gmap string V) (k : string) : outcome V :=
  match d !! k with
  | Some v => Returns v
  | None => Raises (KeyError k)
  end.

(** ** Performances *)

(** Modelled from the spec: the [Performance] class is defined in another
    module of the package; the methods below use it as an opaque sequence
    with a length.  Its events are the four kinds the spec lists (note-on,
    note-off, time-shift, velocity-change). *)
Inductive PerformanceEvent : Type :=
| NOTE_ON (pitch : Z)
| NOTE_OFF (pitch : Z)
| TIME_SHIFT (steps : Z)
| VELOCITY (bin : Z).

Definition Performance : Type := list PerformanceEvent.

(** ** The base class [EventSequenceRnnModel] *)

(** The two inherited methods the subclass calls.  Each runs on the state
    of the model object (session, random generator, ...) and either returns
    or raises. *)
Class EventSequenceRnnModel (Self : Type) : Type := {
  _generate_events :
    Z -> Performance -> float -> Z -> Z -> Z -> pyobj ->
    Self -> outcome Performance * Self;
  _evaluate_log_likelihood :
    list Performance -> pyobj -> Self -> outcome (list float) * Self
}.

(** A call made on the base class, with its actual arguments. *)
Inductive call : Type :=
| Call_generate_events
    (num_steps : Z) (primer_sequence : Performance) (temperature : float)
    (beam_size branch_factor steps_per_iteration : Z) (control_events : pyobj)
| Call_evaluate_log_likelihood
    (sequences : list Performance) (control_events : pyobj).

(** The model object together with the record of the base-class calls made
    on it so far, oldest first. *)
Record world (Self : Type) : Type := World {
  self : Self;
  calls : list call
}.
Arguments World {Self} self calls.
Arguments self {Self} w.
Arguments calls {Self} w.

(** Computations of a method: state passing over the world, with an
    outcome. *)
Definition M (Self A : Type) : Type := world Self -> outcome A * world Self.

Definition bind {Self A B : Type} (m : M Self A) (k : A -> M Self B) : M Self B :=
  fun w =>
    match m w with
    | (Returns a, w') => k a w'
    | (Raises e, w') => (Raises e, w')
    end.

Definition lift_outcome {Self A : Type} (o : outcome A) : M Self A :=
  fun w => (o, w).

Notation "x <- m ;; k" := (bind m (fun x => k))
  (at level 100, m at next level, right associativity).

Section PerformanceRnnModel.

Context {Self : Type} `{EventSequenceRnnModel Self}.

(** [self._generate_events(...)]: the call is recorded, then the base
    class runs on the model state. *)
Definition call_generate_events
    (num_steps : Z) (primer_sequence : Performance) (temperature : float)
    (beam_size branch_factor steps_per_iteration : Z)
    (control_events : pyobj) : M Self Performance :=
  fun w =>
    let '(r, s) :=
      _generate_events num_steps primer_sequence temperature beam_size
                       branch_factor steps_per_iteration control_events
                       (self w) in
    (r, World s (calls w ++
                 [Call_generate_events num_steps primer_sequence temperature
                    beam_size branch_factor steps_per_iteration
                    control_events])).

(** [self._evaluate_log_likelihood(...)], recorded likewise. *)
Definition call_evaluate_log_likelihood
    (sequences : list Performance) (control_events : pyobj)
    : M Self (list float) :=
  fun w =>
    let '(r, s) := _evaluate_log_likelihood sequences control_events (self w) in
    (r, World s (calls w ++
                 [Call_evaluate_log_likelihood sequences control_events])).

(** The value of the local [control_events] of [generate_performance]
    once its [if]/[elif] chain has run. *)
Definition generate_performance_control_events
    (num_steps : Z) (note_density pitch_histogram : pyobj) : pyobj :=
  if is_not_None note_density && is_not_None pitch_histogram then
    PyList (list_mul [PyTuple [note_density; pitch_histogram]] num_steps)
  else if is_not_None note_density then
    PyList (list_mul [note_density] num_steps)
  else if is_not_None pitch_histogram then
    PyList (list_mul [pitch_histogram] num_steps)
  else
    PyNone.

Definition generate_performance
    (num_steps : Z) (primer_sequence : Performance) (temperature : float)
    (beam_size branch_factor steps_per_iteration : Z)
    (note_density pitch_histogram : pyobj) : M Self Performance :=
  let control_events :=
    generate_performance_control_events num_steps note_density
                                        pitch_histogram in
  call_generate_events num_steps primer_sequence temperature beam_size
                       branch_factor steps_per_iteration control_events.

(** The value of the local [control_events] of
    [performance_log_likelihood] once its [if]/[elif] chain has run. *)
Definition performance_log_likelihood_control_events
    (sequence : Performance) (note_density pitch_histogram : pyobj) : pyobj :=
  if is_not_None note_density && is_not_None pitch_histogram then
    PyList (list_mul [PyTuple [note_density; pitch_histogram]] (len sequence))
  else if is_not_None note_density then
    PyList (list_mul [note_density] (len sequence))
  else if is_not_None pitch_histogram then
    PyList (list_mul [pitch_histogram] (len sequence))
  else
    PyNone.

Definition performance_log_likelihood
    (sequence : Performance) (note_density pitch_histogram : pyobj)
    : M Self float :=
  let control_events :=
    performance_log_likelihood_control_events sequence note_density
                                              pitch_histogram in
  r <- call_evaluate_log_likelihood [sequence] control_events ;;
  lift_outcome (getitem0 r).

End PerformanceRnnModel.

(** ** Keyword arguments with defaults *)

(** A keyword argument of a call: left out, or passed with a value. *)
Inductive kwarg (A : Type) : Type :=
| Omitted
| Passed (a : A).
Arguments Omitted {A}.
Arguments Passed {A} a.

(** The value a parameter with default [d] takes. *)
Definition kwarg_value {A : Type} (d : A) (k : kwarg A) : A :=
  match k with
  | Omitted => d
  | Passed a => a
  end.

(** ** Collaborators of a configuration *)

(** [magenta.protobuf.generator_pb2.GeneratorDetails(id=..., description=...)] *)
Record GeneratorDetails : Type := {
  id : string;
  description : string
}.

(** The one-hot encodings of [performance_encoder_decoder], each recorded
    with the arguments of its constructor call. *)
Inductive OneHotEncoding : Type :=
| PerformanceOneHotEncoding (num_velocity_bins : kwarg Z)
| NoteDensityOneHotEncoding (density_bin_ranges : list float).

(** The encoder-decoder objects the registry composes, by constructor. *)
#[local] Set Warnings "-register-all".
Inductive EncoderDecoder : Type :=
| OneHotEventSequenceEncoderDecoder (one_hot_encoding : OneHotEncoding)
| PitchHistogramEncoderDecoder
| MultipleEventSequenceEncoder (encoders : list EncoderDecoder)
| ConditionalEventSequenceEncoderDecoder
    (control_encoder_decoder target_encoder_decoder : EncoderDecoder).
#[local] Set Warnings "register-all".

(** [tf.contrib.training.HParams(...)] with the five keywords every entry
    of the registry passes. *)
Record HParams : Type := {
  batch_size : Z;
  rnn_layer_sizes : list Z;
  dropout_keep_prob : float;
  clip_norm : Z;
  learning_rate : float
}.

(** ** [PerformanceRnnConfig] *)

(** The attributes of a configuration: the three the base class
    [EventSequenceRnnConfig] stores, then the four this class adds.  A
    field that may hold [None] is an [option]. *)
Record PerformanceRnnConfig : Type := {
  details : GeneratorDetails;
  encoder_decoder : EncoderDecoder;
  hparams : HParams;
  num_velocity_bins : Z;
  density_bin_ranges : option (list float);
  density_window_size : option float;
  pitch_histogram_window_size : option float
}.

(** [PerformanceRnnConfig.__init__]: the four keyword parameters default
    to [0], [None], [3.0] and [None]. *)
Definition PerformanceRnnConfig__init__
    (details : GeneratorDetails) (encoder_decoder : EncoderDecoder)
    (hparams : HParams)
    (num_velocity_bins : kwarg Z)
    (density_bin_ranges : kwarg (option (list float)))
    (density_window_size : kwarg (option float))
    (pitch_histogram_window_size : kwarg (option float))
    : PerformanceRnnConfig :=
  {| details := details;
     encoder_decoder := encoder_decoder;
     hparams := hparams;
     num_velocity_bins := kwarg_value 0 num_velocity_bins;
     density_bin_ranges := kwarg_value None density_bin_ranges;
     density_window_size := kwarg_value (Some 3.0%float) density_window_size;
     pitch_histogram_window_size :=
       kwarg_value None pitch_histogram_window_size |}.

(** ** The registry [default_configs] *)

#[local] Set Warnings "-inexact-float".

Definition config_performance : PerformanceRnnConfig :=
  PerformanceRnnConfig__init__
    {| id := "performance";
       description := "Performance RNN" |}
    (OneHotEventSequenceEncoderDecoder
       (PerformanceOneHotEncoding Omitted))
    {| batch_size := 64;
       rnn_layer_sizes := [512; 512; 512];
       dropout_keep_prob := 1.0%float;
       clip_norm := 3;
       learning_rate := 0.001%float |}
    Omitted Omitted Omitted Omitted.

Definition config_performance_with_dynamics : PerformanceRnnConfig :=
  PerformanceRnnConfig__init__
    {| id := "performance_with_dynamics";
       description := "Performance RNN with dynamics" |}
    (OneHotEventSequenceEncoderDecoder
       (PerformanceOneHotEncoding (Passed 32)))
    {| batch_size := 64;
       rnn_layer_sizes := [512; 512; 512];
       dropout_keep_prob := 1.0%float;
       clip_norm := 3;
       learning_rate := 0.001%float |}
    (Passed 32) Omitted Omitted Omitted.

Definition config_density_conditioned_performance_with_dynamics
    : PerformanceRnnConfig :=
  PerformanceRnnConfig__init__
    {| id := "density_conditioned_performance_with_dynamics";
       description := "Note-density-conditioned Performance RNN + dynamics" |}
    (ConditionalEventSequenceEncoderDecoder
       (OneHotEventSequenceEncoderDecoder
          (NoteDensityOneHotEncoding
             [1.0; 2.0; 4.0; 8.0; 16.0; 32.0; 64.0]%float))
       (OneHotEventSequenceEncoderDecoder
          (PerformanceOneHotEncoding (Passed 32))))
    {| batch_size := 64;
       rnn_layer_sizes := [512; 512; 512];
       dropout_keep_prob := 1.0%float;
       clip_norm := 3;
       learning_rate := 0.001%float |}
    (Passed 32)
    (Passed (Some [1.0; 2.0; 4.0; 8.0; 16.0; 32.0; 64.0]%float))
    (Passed (Some 3.0%float))
    Omitted.

Definition config_pitch_conditioned_performance_with_dynamics
    : PerformanceRnnConfig :=
  PerformanceRnnConfig__init__
    {| id := "pitch_conditioned_performance_with_dynamics";
       description := "Pitch-histogram-conditioned Performance RNN" |}
    (ConditionalEventSequenceEncoderDecoder
       PitchHistogramEncoderDecoder
       (OneHotEventSequenceEncoderDecoder
          (PerformanceOneHotEncoding (Passed 32))))
    {| batch_size := 64;
       rnn_layer_sizes := [512; 512; 512];
       dropout_keep_prob := 1.0%float;
       clip_norm := 3;
       learning_rate := 0.001%float |}
    (Passed 32) Omitted Omitted (Passed (Some 5.0%float)).

Definition config_multiconditioned_performance_with_dynamics
    : PerformanceRnnConfig :=
  PerformanceRnnConfig__init__
    {| id := "multiconditioned_performance_with_dynamics";
       description := "Density- and pitch-conditioned Performance RNN" |}
    (ConditionalEventSequenceEncoderDecoder
       (MultipleEventSequenceEncoder
          [OneHotEventSequenceEncoderDecoder
             (NoteDensityOneHotEncoding
                [1.0; 2.0; 4.0; 8.0; 16.0; 32.0; 64.0]%float);
           PitchHistogramEncoderDecoder])
       (OneHotEventSequenceEncoderDecoder
          (PerformanceOneHotEncoding (Passed 32))))
    {| batch_size := 64;
       rnn_layer_sizes := [512; 512; 512];
       dropout_keep_prob := 1.0%float;
       clip_norm := 3;
       learning_rate := 0.001%float |}
    (Passed 32)
    (Passed (Some [1.0; 2.0; 4.0; 8.0; 16.0; 32.0; 64.0]%float))
    (Passed (Some 3.0%float))
    (Passed (Some 5.0%float)).

(** The dictionary literal: its items are inserted in the order written,
    the first one innermost. *)
Definition default_configs : gmap string PerformanceRnnConfig :=
  <["multiconditioned_performance_with_dynamics" :=
      config_multiconditioned_performance_with_dynamics]>
  (<["pitch_conditioned_performance_with_dynamics" :=
      config_pitch_conditioned_performance_with_dynamics]>
  (<["density_conditioned_performance_with_dynamics" :=
      config_density_conditioned_performance_with_dynamics]>
  (<["performance_with_dynamics" := config_performance_with_dynamics]>
  (<["performance" := config_performance]> ∅)))).

(** The five names under which the module registers a configuration. *)
Definition registered_names : list string :=
  ["performance";
   "performance_with_dynamics";
   "density_conditioned_performance_with_dynamics";
   "pitch_conditioned_performance_with_dynamics";
   "multiconditioned_performance_with_dynamics"].

(** ** The two methods as a caller reaches them *)

Section KeywordCalls.

Context {Self : Type} `{EventSequenceRnnModel Self}.

(** A call of [generate_performance]: the parameters after
    [primer_sequence] are keywords, defaulting to [1.0], [1], [1], [1],
    [None] and [None]. *)
Definition generate_performance_call
    (num_steps : Z) (primer_sequence : Performance)
    (temperature : kwarg float)
    (beam_size branch_factor steps_per_iteration : kwarg Z)
    (note_density pitch_histogram : kwarg pyobj) : M Self Performance :=
  generate_performance num_steps primer_sequence
    (kwarg_value 1.0%float temperature)
    (kwarg_value 1 beam_size)
    (kwarg_value 1 branch_factor)
    (kwarg_value 1 steps_per_iteration)
    (kwarg_value PyNone note_density)
    (kwarg_value PyNone pitch_histogram).

(** A call of [performance_log_likelihood]: both conditioning parameters
    default to [None]. *)
Definition performance_log_likelihood_call
    (sequence : Performance) (note_density pitch_histogram : kwarg pyobj)
    : M Self float :=
  performance_log_likelihood sequence
    (kwarg_value PyNone note_density)
    (kwarg_value PyNone pitch_histogram).

End KeywordCalls.

(** ** A concrete model object *)

(** A deterministic stand-in for the base class, used to run the two
    methods on concrete inputs: generation pads the primer with time shifts
    up to [num_steps], evaluation answers one number per sequence of the
    batch, and the state counts the calls served. *)
Definition padding_model : EventSequenceRnnModel nat := {|
  _generate_events num_steps primer_sequence _ _ _ _ _ served :=
    (Returns (primer_sequence ++
              replicate (Z.to_nat num_steps - length primer_sequence)%nat
                        (TIME_SHIFT 1))%list,
     S served);
  _evaluate_log_likelihood sequences _ served :=
    (Returns (map (fun _ : Performance => (-1.5)%float) sequences), S served)
|}.

(** A second stand-in, for the failure paths: generation raises, and
    evaluation answers with an empty list. *)
Definition failing_model : EventSequenceRnnModel nat := {|
  _generate_events _ _ _ _ _ _ _ served :=
    (Raises (OtherError "SequenceGeneratorError"), S served);
  _evaluate_log_likelihood _ _ served := (Returns [], S served)
|}.

(** The [control_events] argument of a recorded call. *)
Definition passed_control_events (c : call) : pyobj :=
  match c with
  | Call_generate_events _ _ _ _ _ _ control_events => control_events
  | Call_evaluate_log_likelihood _ control_events => control_events
  end.

(** * Properties *)

(** ** List repetition *)

Lemma list_mul_singleton {A : Type} (x : A) (n : Z) :
  list_mul [x] n = replicate (Z.to_nat n) x.
Proof.
  unfold list_mul. induction (Z.to_nat n) as [|k IH]; simpl.
  - reflexivity.
  - now rewrite IH.
Qed.

Lemma len_list_mul_singleton {A : Type} (x : A) (n : Z) :
  0 <= n -> len (list_mul [x] n) = n.
Proof.
  intros Hn. unfold len.
  rewrite list_mul_singleton, length_replicate. now apply Z2Nat.id.
Qed.

Lemma Forall_list_mul_singleton {A : Type} (x : A) (n : Z) :
  Forall (fun e => e = x) (list_mul [x] n).
Proof.
  rewrite list_mul_singleton. apply Forall_forall.
  intros e He. now apply elem_of_replicate_inv in He.
Qed.

Lemma list_mul_nonpositive {A : Type} (l : list A) (n : Z) :
  n <= 0 -> list_mul l n = [].
Proof.
  intros Hn. unfold list_mul.
  replace (Z.to_nat n) with 0%nat by lia. reflexivity.
Qed.

(** ** Deciding [is not None] *)

Lemma is_not_None_true (x : pyobj) : x <> PyNone -> is_not_None x = true.
Proof. destruct x; intros Hx; [congruence | reflexivity ..]. Qed.

Lemma is_not_None_false (x : pyobj) : is_not_None x = false -> x = PyNone.
Proof. destruct x; simpl; intros Hx; [reflexivity | discriminate ..]. Qed.

(** ** The branches of the two [if]/[elif] chains *)

Lemma generate_control_both (n : Z) (d h : pyobj) :
  d <> PyNone -> h <> PyNone ->
  generate_performance_control_events n d h
  = PyList (list_mul [PyTuple [d; h]] n).
Proof.
  intros Hd Hh. unfold generate_performance_control_events.
  now rewrite (is_not_None_true d Hd), (is_not_None_true h Hh).
Qed.

Lemma generate_control_density (n : Z) (d : pyobj) :
  d <> PyNone ->
  generate_performance_control_events n d PyNone = PyList (list_mul [d] n).
Proof.
  intros Hd. unfold generate_performance_control_events.
  now rewrite (is_not_None_true d Hd).
Qed.

Lemma generate_control_histogram (n : Z) (h : pyobj) :
  h <> PyNone ->
  generate_performance_control_events n PyNone h = PyList (list_mul [h] n).
Proof.
  intros Hh. unfold generate_performance_control_events.
  now rewrite (is_not_None_true h Hh).
Qed.

Lemma likelihood_control_both (sequence : Performance) (d h : pyobj) :
  d <> PyNone -> h <> PyNone ->
  performance_log_likelihood_control_events sequence d h
  = PyList (list_mul [PyTuple [d; h]] (len sequence)).
Proof.
  intros Hd Hh. unfold performance_log_likelihood_control_events.
  now rewrite (is_not_None_true d Hd), (is_not_None_true h Hh).
Qed.

Lemma likelihood_control_density (sequence : Performance) (d : pyobj) :
  d <> PyNone ->
  performance_log_likelihood_control_events sequence d PyNone
  = PyList (list_mul [d] (len sequence)).
Proof.
  intros Hd. unfold performance_log_likelihood_control_events.
  now rewrite (is_not_None_true d Hd).
Qed.

Lemma likelihood_control_histogram (sequence : Performance) (h : pyobj) :
  h <> PyNone ->
  performance_log_likelihood_control_events sequence PyNone h
  = PyList (list_mul [h] (len sequence)).
Proof.
  intros Hh. unfold performance_log_likelihood_control_events.
  now rewrite (is_not_None_true h Hh).
Qed.

(** The two chains are the same function of the step count. *)
Lemma likelihood_control_as_generate (sequence : Performance) (d h : pyobj) :
  performance_log_likelihood_control_events sequence d h
  = generate_performance_control_events (len sequence) d h.
Proof. reflexivity. Qed.

(** ** What a method does to the world *)

Section Dispatch.

Context {Self : Type} `{EventSequenceRnnModel Self}.

Lemma generate_performance_unfold
    (num_steps : Z) (primer_sequence : Performance) (temperature : float)
    (beam_size branch_factor steps_per_iteration : Z)
    (note_density pitch_histogram : pyobj) (w : world Self) :
  let control_events :=
    generate_performance_control_events num_steps note_density
                                        pitch_histogram in
  let res :=
    _generate_events num_steps primer_sequence temperature beam_size
                     branch_factor steps_per_iteration control_events
                     (self w) in
  generate_performance num_steps primer_sequence temperature beam_size
                       branch_factor steps_per_iteration note_density
                       pitch_histogram w
  = (fst res,
     World (snd res)
           (calls w ++
            [Call_generate_events num_steps primer_sequence temperature
               beam_size branch_factor steps_per_iteration control_events])).
Proof.
  intros control_events res.
  unfold generate_performance, call_generate_events.
  fold control_events. fold res. now destruct res.
Qed.

Lemma performance_log_likelihood_unfold
    (sequence : Performance) (note_density pitch_histogram : pyobj)
    (w : world Self) :
  let control_events :=
    performance_log_likelihood_control_events sequence note_density
                                              pitch_histogram in
  let res := _evaluate_log_likelihood [sequence] control_events (self w) in
  performance_log_likelihood sequence note_density pitch_histogram w
  = (match fst res with
     | Returns r => getitem0 r
     | Raises e => Raises e
     end,
     World (snd res)
           (calls w ++
            [Call_evaluate_log_likelihood [sequence] control_events])).
Proof.
  intros control_events res.
  unfold performance_log_likelihood, bind, call_evaluate_log_likelihood,
    lift_outcome.
  fold control_events. fold res. now destruct res as [[r|e] s].
Qed.

End Dispatch.

(** ** The control sequence *)

Section ControlSequence.

Context {Self : Type} `{EventSequenceRnnModel Self}.

(** C3. With both a note density [d] and a pitch histogram [h] given
    (neither is [None]) and a positive step count [N], the control
    sequence built by [generate_performance] for [num_steps = N], and the
    one built by [performance_log_likelihood] for a sequence of length
    [N], is a list of length [N] whose every element is the pair
    [(d, h)]. *)
Theorem control_sequence_of_pairs
    (N : Z) (d h : pyobj) (sequence : Performance) :
  0 < N -> d <> PyNone -> h <> PyNone -> len sequence = N ->
  (exists l,
      generate_performance_control_events N d h = PyList l /\
      len l = N /\ Forall (fun e => e = PyTuple [d; h]) l) /\
  (exists l,
      performance_log_likelihood_control_events sequence d h = PyList l /\
      len l = N /\ Forall (fun e => e = PyTuple [d; h]) l).
Proof.
  intros HN Hd Hh Hlen. split.
  - exists (list_mul [PyTuple [d; h]] N). split; [|split].
    + now apply generate_control_both.
    + apply len_list_mul_singleton. lia.
    + apply Forall_list_mul_singleton.
  - exists (list_mul [PyTuple [d; h]] N). split; [|split].
    + rewrite <- Hlen. now apply likelihood_control_both.
    + apply len_list_mul_singleton. lia.
    + apply Forall_list_mul_singleton.
Qed.

(** C4. With exactly one of the two conditioning values given (the
    other is [None]) and a positive step count [N], the control sequence
    built at either call site is a list of length [N] whose every element
    is the value given. *)
Theorem control_sequence_of_single_value
    (N : Z) (v : pyobj) (sequence : Performance) :
  0 < N -> v <> PyNone -> len sequence = N ->
  forall ce,
    ce = generate_performance_control_events N v PyNone \/
    ce = generate_performance_control_events N PyNone v \/
    ce = performance_log_likelihood_control_events sequence v PyNone \/
    ce = performance_log_likelihood_control_events sequence PyNone v ->
    exists l, ce = PyList l /\ len l = N /\ Forall (fun e => e = v) l.
Proof.
  intros HN Hv Hlen ce Hce.
  exists (list_mul [v] N). split; [|split].
  - destruct Hce as [-> | [-> | [-> | ->]]].
    + now apply generate_control_density.
    + now apply generate_control_histogram.
    + rewrite <- Hlen. now apply likelihood_control_density.
    + rewrite <- Hlen. now apply likelihood_control_histogram.
  - apply len_list_mul_singleton. lia.
  - apply Forall_list_mul_singleton.
Qed.

(** C5. With both conditioning values [None], whatever the step count,
    the control sequence built at either call site is [None]; [None] is
    not the empty list; and [None] is the [control_events] argument of
    the one call made on the generator, respectively the evaluator. *)
Theorem unconditioned_control_is_None
    (N : Z) (primer_sequence sequence : Performance) (temperature : float)
    (beam_size branch_factor steps_per_iteration : Z) (w : world Self) :
  generate_performance_control_events N PyNone PyNone = PyNone /\
  performance_log_likelihood_control_events sequence PyNone PyNone = PyNone /\
  PyNone <> PyList [] /\
  calls (snd (generate_performance N primer_sequence temperature beam_size
                branch_factor steps_per_iteration PyNone PyNone w))
  = (calls w ++
     [Call_generate_events N primer_sequence temperature beam_size
        branch_factor steps_per_iteration PyNone])%list /\
  calls (snd (performance_log_likelihood sequence PyNone PyNone w))
  = (calls w ++ [Call_evaluate_log_likelihood [sequence] PyNone])%list.
Proof.
  repeat split.
  - discriminate.
  - now rewrite generate_performance_unfold.
  - now rewrite performance_log_likelihood_unfold.
Qed.

(** C9. For a sequence whose length is [num_steps], and any conditioning
    values, [performance_log_likelihood] builds the control sequence that
    [generate_performance] builds: the two locals are equal, and so are
    the [control_events] arguments of the calls the two methods make. *)
Theorem control_sequences_agree
    (num_steps : Z) (primer_sequence sequence : Performance)
    (temperature : float) (beam_size branch_factor steps_per_iteration : Z)
    (note_density pitch_histogram : pyobj) (w w' : world Self) :
  len sequence = num_steps ->
  performance_log_likelihood_control_events sequence note_density
                                            pitch_histogram
  = generate_performance_control_events num_steps note_density
                                        pitch_histogram /\
  last (passed_control_events <$>
        calls (snd (performance_log_likelihood sequence note_density
                      pitch_histogram w)))
  = last (passed_control_events <$>
          calls (snd (generate_performance num_steps primer_sequence
                        temperature beam_size branch_factor
                        steps_per_iteration note_density pitch_histogram
                        w'))).
Proof.
  intros <-. split.
  - apply likelihood_control_as_generate.
  - rewrite performance_log_likelihood_unfold, generate_performance_unfold.
    cbn [snd calls]. rewrite !fmap_app.
    change (passed_control_events <$> [?c]) with [passed_control_events c].
    rewrite !last_snoc. reflexivity.
Qed.

End ControlSequence.

(** ** Delegation to the base class *)

Section Delegation.

Context {Self : Type} `{EventSequenceRnnModel Self}.

(** What the first branch of each chain leads to.  When both conditioning
    values are given (neither is [None]), no [ValueError] is raised on
    account of the pair.  Each method builds the list holding one pair
    [(note_density, pitch_histogram)] per step ([num_steps], respectively
    [len(sequence)], of them) and makes a single call on the base class
    with that list as [control_events].  [generate_performance] ends with
    the outcome of [_generate_events]; [performance_log_likelihood] ends
    with element [0] of the list [_evaluate_log_likelihood] returns
    ([IndexError] when that list is empty), or with the error the
    evaluator raises. *)
Theorem both_conditioned_delegates
    (num_steps : Z) (primer_sequence sequence : Performance)
    (temperature : float) (beam_size branch_factor steps_per_iteration : Z)
    (note_density pitch_histogram : pyobj) (w : world Self) :
  note_density <> PyNone -> pitch_histogram <> PyNone ->
  let pair := PyTuple [note_density; pitch_histogram] in
  let generated :=
    _generate_events num_steps primer_sequence temperature beam_size
      branch_factor steps_per_iteration
      (PyList (replicate (Z.to_nat num_steps) pair)) (self w) in
  let evaluated :=
    _evaluate_log_likelihood [sequence]
      (PyList (replicate (length sequence) pair)) (self w) in
  generate_performance num_steps primer_sequence temperature beam_size
    branch_factor steps_per_iteration note_density pitch_histogram w
  = (fst generated,
     World (snd generated)
       (calls w ++
        [Call_generate_events num_steps primer_sequence temperature
           beam_size branch_factor steps_per_iteration
           (PyList (replicate (Z.to_nat num_steps) pair))])) /\
  performance_log_likelihood sequence note_density pitch_histogram w
  = (match fst evaluated with
     | Returns r => getitem0 r
     | Raises e => Raises e
     end,
     World (snd evaluated)
       (calls w ++
        [Call_evaluate_log_likelihood [sequence]
           (PyList (replicate (length sequence) pair))])).
Proof.
  intros Hd Hh pair generated evaluated. split.
  - rewrite generate_performance_unfold.
    rewrite (generate_control_both _ _ _ Hd Hh), list_mul_singleton.
    reflexivity.
  - rewrite performance_log_likelihood_unfold.
    rewrite (likelihood_control_both _ _ _ Hd Hh), list_mul_singleton.
    unfold len. rewrite Nat2Z.id. reflexivity.
Qed.

(** C6. For every sequence and every conditioning input,
    [performance_log_likelihood] makes exactly one call on the base
    class: [_evaluate_log_likelihood] on the one-element batch
    [[sequence]], with the control sequence it built ([None] when no
    conditioning value is given).  When the evaluator answers with a
    single result, that result is returned as it is; when the evaluator
    raises, the error is passed on. *)
Theorem performance_log_likelihood_single_batch
    (sequence : Performance) (note_density pitch_histogram : pyobj)
    (w : world Self) :
  let control_events :=
    performance_log_likelihood_control_events sequence note_density
                                              pitch_histogram in
  let after :=
    performance_log_likelihood sequence note_density pitch_histogram w in
  let evaluated :=
    _evaluate_log_likelihood [sequence] control_events (self w) in
  calls (snd after)
  = (calls w ++ [Call_evaluate_log_likelihood [sequence] control_events])%list /\
  length [sequence] = 1%nat /\
  self (snd after) = snd evaluated /\
  (note_density = PyNone -> pitch_histogram = PyNone ->
   control_events = PyNone) /\
  (forall r, fst evaluated = Returns [r] -> fst after = Returns r) /\
  (forall e, fst evaluated = Raises e -> fst after = Raises e).
Proof.
  intros control_events after evaluated. subst after.
  rewrite performance_log_likelihood_unfold.
  fold control_events. fold evaluated. cbn [fst snd calls self].
  repeat split.
  - intros -> ->. reflexivity.
  - intros r ->. reflexivity.
  - intros e ->. reflexivity.
Qed.

End Delegation.

(** ** The configuration constructor *)

(** C7, as amended.  Called with its three positional arguments only, the
    constructor sets [num_velocity_bins] to [0], [density_bin_ranges] to
    [None] and [pitch_histogram_window_size] to [None], and sets
    [density_window_size] to [3.0]. *)
Theorem PerformanceRnnConfig_defaults
    (d : GeneratorDetails) (e : EncoderDecoder) (hp : HParams) :
  let c := PerformanceRnnConfig__init__ d e hp Omitted Omitted Omitted Omitted in
  num_velocity_bins c = 0 /\
  density_bin_ranges c = None /\
  pitch_histogram_window_size c = None /\
  density_window_size c = Some 3.0%float.
Proof. repeat split. Qed.

(** ** The registry *)

(** C2. The registry holds exactly the five documented keys; the entry
    under ['performance'] has no velocity bins, no density bin ranges and
    no pitch histogram window; the entry under
    ['multiconditioned_performance_with_dynamics'] has 32 velocity bins,
    the density bin ranges 1, 2, 4, 8, 16, 32, 64 and a pitch histogram
    window of 5.0. *)
Theorem default_configs_entries :
  dom default_configs
  = {[ "performance";
       "performance_with_dynamics";
       "density_conditioned_performance_with_dynamics";
       "pitch_conditioned_performance_with_dynamics";
       "multiconditioned_performance_with_dynamics" ]} /\
  size default_configs = 5%nat /\
  (exists c,
      default_configs !! "performance" = Some c /\
      num_velocity_bins c = 0 /\
      density_bin_ranges c = None /\
      pitch_histogram_window_size c = None) /\
  (exists c,
      default_configs !! "multiconditioned_performance_with_dynamics" = Some c /\
      num_velocity_bins c = 32 /\
      density_bin_ranges c
      = Some [1.0; 2.0; 4.0; 8.0; 16.0; 32.0; 64.0]%float /\
      pitch_histogram_window_size c = Some 5.0%float).
Proof.
  split; [|split; [|split]].
  - unfold default_configs. rewrite !dom_insert_L, dom_empty_L. set_solver.
  - reflexivity.
  - exists config_performance. repeat split.
  - exists config_multiconditioned_performance_with_dynamics. repeat split.
Qed.

Lemma lookup_unregistered (name : string) :
  name ∉ registered_names -> default_configs !! name = None.
Proof.
  unfold registered_names. rewrite !not_elem_of_cons.
  intros (H1 & H2 & H3 & H4 & H5 & _).
  unfold default_configs.
  rewrite !lookup_insert_ne by congruence. apply lookup_empty.
Qed.

Lemma lookup_registered (name : string) (c : PerformanceRnnConfig) :
  default_configs !! name = Some c ->
  c = config_performance \/
  c = config_performance_with_dynamics \/
  c = config_density_conditioned_performance_with_dynamics \/
  c = config_pitch_conditioned_performance_with_dynamics \/
  c = config_multiconditioned_performance_with_dynamics.
Proof.
  unfold default_configs. intros Hc.
  repeat (apply lookup_insert_Some in Hc as [[_ <-] | [_ Hc]]; [tauto |]).
  now rewrite lookup_empty in Hc.
Qed.

(** C8. Looking up a name that is not one of the five registered ones
    raises [KeyError]; no configuration is returned in its place. *)
Theorem unregistered_name_raises_KeyError (name : string) :
  name ∉ registered_names ->
  dict_getitem default_configs name = Raises (KeyError name) /\
  forall c, dict_getitem default_configs name <> Returns c.
Proof.
  intros Hname. unfold dict_getitem.
  rewrite (lookup_unregistered name Hname). split.
  - reflexivity.
  - discriminate.
Qed.

(** C10, as amended.  Every configuration of the registry carries the same
    hyperparameters: [batch_size = 64], [rnn_layer_sizes = [512, 512, 512]],
    [dropout_keep_prob = 1.0], [clip_norm = 3], [learning_rate = 0.001].
    Two configurations of the registry differ only in their generator
    details ([id] and [description]), their encoder-decoder and the four
    fields [PerformanceRnnConfig] adds: when those agree, the
    configurations are equal. *)
Theorem registry_hparams_identical
    (name1 name2 : string) (c1 c2 : PerformanceRnnConfig) :
  default_configs !! name1 = Some c1 ->
  default_configs !! name2 = Some c2 ->
  hparams c1
  = {| batch_size := 64;
       rnn_layer_sizes := [512; 512; 512];
       dropout_keep_prob := 1.0%float;
       clip_norm := 3;
       learning_rate := 0.001%float |} /\
  hparams c1 = hparams c2 /\
  (details c1 = details c2 ->
   encoder_decoder c1 = encoder_decoder c2 ->
   num_velocity_bins c1 = num_velocity_bins c2 ->
   density_bin_ranges c1 = density_bin_ranges c2 ->
   density_window_size c1 = density_window_size c2 ->
   pitch_histogram_window_size c1 = pitch_histogram_window_size c2 ->
   c1 = c2).
Proof.
  intros H1 H2.
  assert (E : forall n c, default_configs !! n = Some c ->
              hparams c = hparams config_performance).
  { intros n c Hc.
    destruct (lookup_registered n c Hc) as [-> | [-> | [-> | [-> | ->]]]];
      reflexivity. }
  pose proof (E _ _ H1) as E1. pose proof (E _ _ H2) as E2.
  split; [exact E1 | split].
  - congruence.
  - destruct c1, c2. cbn in *. congruence.
Qed.

(** * Concrete runs *)

(** A twelve-bin pitch class histogram, all weight on C and G. *)
Definition histogram_C_G : pyobj :=
  PyList (PyFloat 0.5 :: replicate 6 (PyFloat 0.0) ++
          PyFloat 0.5 :: replicate 4 (PyFloat 0.0))%list.

(** A short performance: one note held for ten steps. *)
Definition one_note : Performance := [NOTE_ON 60; TIME_SHIFT 10; NOTE_OFF 60].

(** The world before any call, over [padding_model]. *)
Definition fresh : world nat := World 0%nat [].

(** C1.  The docstrings of [generate_performance] and
    [performance_log_likelihood] announce [ValueError] when a note density
    and a pitch histogram are both given.  On this input, with both given,
    the two methods return a result instead: neither ends in
    [ValueError]. *)
Lemma both_conditioned_returns :
  (PyFloat 4.0 <> PyNone /\ histogram_C_G <> PyNone) /\
  (fst (generate_performance (H := padding_model) 5 one_note 1.0%float 1 1 1
          (PyFloat 4.0) histogram_C_G fresh)
   = Returns [NOTE_ON 60; TIME_SHIFT 10; NOTE_OFF 60;
              TIME_SHIFT 1; TIME_SHIFT 1] /\
   fst (generate_performance (H := padding_model) 5 one_note 1.0%float 1 1 1
          (PyFloat 4.0) histogram_C_G fresh)
   <> Raises ValueError) /\
  (fst (performance_log_likelihood (H := padding_model) one_note
          (PyFloat 4.0) histogram_C_G fresh)
   = Returns (-1.5)%float /\
   fst (performance_log_likelihood (H := padding_model) one_note
          (PyFloat 4.0) histogram_C_G fresh)
   <> Raises ValueError).
Proof.
  split; [split; discriminate |].
  split; (split; [reflexivity | discriminate]).
Qed.

(** The same run, through [both_conditioned_delegates]: the pairs are on
    record as the [control_events] of the one call each method makes. *)
Lemma both_conditioned_delegates_witness :
  generate_performance (H := padding_model) 5 one_note 1.0%float 1 1 1
    (PyFloat 4.0) histogram_C_G fresh
  = (Returns [NOTE_ON 60; TIME_SHIFT 10; NOTE_OFF 60;
              TIME_SHIFT 1; TIME_SHIFT 1],
     World 1%nat
       [Call_generate_events 5 one_note 1.0%float 1 1 1
          (PyList (replicate 5 (PyTuple [PyFloat 4.0; histogram_C_G])))]) /\
  performance_log_likelihood (H := padding_model) one_note
    (PyFloat 4.0) histogram_C_G fresh
  = (Returns (-1.5)%float,
     World 1%nat
       [Call_evaluate_log_likelihood [one_note]
          (PyList (replicate 3 (PyTuple [PyFloat 4.0; histogram_C_G])))]).
Proof.
  apply (both_conditioned_delegates (H := padding_model) 5 one_note one_note
           1.0%float 1 1 1 (PyFloat 4.0) histogram_C_G fresh);
    discriminate.
Defined.

(** C3, witness: three steps, density 4.0 and the histogram above. *)
Lemma control_sequence_of_pairs_witness :
  (exists l,
      generate_performance_control_events 3 (PyFloat 4.0) histogram_C_G
      = PyList l /\
      len l = 3 /\
      Forall (fun e => e = PyTuple [PyFloat 4.0; histogram_C_G]) l) /\
  (exists l,
      performance_log_likelihood_control_events one_note (PyFloat 4.0)
                                                histogram_C_G
      = PyList l /\
      len l = 3 /\
      Forall (fun e => e = PyTuple [PyFloat 4.0; histogram_C_G]) l).
Proof.
  apply (control_sequence_of_pairs 3 (PyFloat 4.0) histogram_C_G one_note).
  - reflexivity.
  - discriminate.
  - discriminate.
  - reflexivity.
Defined.

(** C4, witness: a density alone at the generation site, a histogram alone
    at the evaluation site. *)
Lemma control_sequence_of_single_value_witness :
  (exists l,
      generate_performance_control_events 3 (PyFloat 4.0) PyNone = PyList l /\
      len l = 3 /\ Forall (fun e => e = PyFloat 4.0) l) /\
  (exists l,
      performance_log_likelihood_control_events one_note PyNone histogram_C_G
      = PyList l /\
      len l = 3 /\ Forall (fun e => e = histogram_C_G) l).
Proof.
  split.
  - apply (control_sequence_of_single_value 3 (PyFloat 4.0) one_note).
    + reflexivity.
    + discriminate.
    + reflexivity.
    + left. reflexivity.
  - apply (control_sequence_of_single_value 3 histogram_C_G one_note).
    + reflexivity.
    + discriminate.
    + reflexivity.
    + right. right. right. reflexivity.
Defined.

(** C9, witness: a sequence of three events against [num_steps = 3]. *)
Lemma control_sequences_agree_witness :
  performance_log_likelihood_control_events one_note (PyFloat 4.0) PyNone
  = generate_performance_control_events 3 (PyFloat 4.0) PyNone /\
  last (passed_control_events <$>
        calls (snd (performance_log_likelihood (H := padding_model) one_note
                      (PyFloat 4.0) PyNone fresh)))
  = last (passed_control_events <$>
          calls (snd (generate_performance (H := padding_model) 3 [NOTE_ON 60]
                        1.0%float 1 1 1 (PyFloat 4.0) PyNone fresh))).
Proof.
  apply (control_sequences_agree (H := padding_model) 3 [NOTE_ON 60] one_note
           1.0%float 1 1 1 (PyFloat 4.0) PyNone fresh fresh).
  reflexivity.
Defined.

(** C6, witness: the scenario of a sequence of length 10 with no
    conditioning. *)
Lemma performance_log_likelihood_single_batch_witness :
  let sequence := replicate 10 (TIME_SHIFT 1) in
  len sequence = 10 /\
  calls (snd (performance_log_likelihood (H := padding_model) sequence
                PyNone PyNone fresh))
  = [Call_evaluate_log_likelihood [sequence] PyNone] /\
  fst (performance_log_likelihood (H := padding_model) sequence
         PyNone PyNone fresh)
  = Returns (-1.5)%float.
Proof.
  intros sequence.
  destruct (performance_log_likelihood_single_batch (H := padding_model)
              sequence PyNone PyNone fresh)
    as (Hcalls & _ & _ & _ & Hret & _).
  split; [reflexivity | split].
  - exact Hcalls.
  - apply Hret. reflexivity.
Defined.

(** C7, counterexample.  Built with the defaults, a configuration has its
    density window size set, to [3.0]: the four fields are not all off. *)
Lemma density_window_size_is_set_by_default :
  let c :=
    PerformanceRnnConfig__init__ (details config_performance)
      (encoder_decoder config_performance) (hparams config_performance)
      Omitted Omitted Omitted Omitted in
  (density_bin_ranges c = None /\ density_window_size c = Some 3.0%float) /\
  density_window_size c <> None.
Proof. split; [split; reflexivity | discriminate]. Qed.

(** C8, witness: a name of another model family. *)
Lemma unregistered_name_raises_KeyError_witness :
  dict_getitem default_configs "polyphony" = Raises (KeyError "polyphony") /\
  forall c, dict_getitem default_configs "polyphony" <> Returns c.
Proof.
  apply (unregistered_name_raises_KeyError "polyphony").
  unfold registered_names. rewrite !not_elem_of_cons.
  repeat split; try discriminate. apply not_elem_of_nil.
Defined.

(** C10, counterexample.  Two configurations of the registry differ in
    their generator details, which are neither encoder-decoder topology nor
    one of the four performance-specific fields. *)
Lemma registry_details_differ :
  (default_configs !! "performance" = Some config_performance /\
   default_configs !! "performance_with_dynamics"
   = Some config_performance_with_dynamics) /\
  id (details config_performance) = "performance" /\
  id (details config_performance_with_dynamics) = "performance_with_dynamics" /\
  details config_performance <> details config_performance_with_dynamics.
Proof.
  split; [split; reflexivity |].
  split; [reflexivity | split; [reflexivity | discriminate]].
Qed.

(** C10, witness of the amended statement, on the same two entries. *)
Lemma registry_hparams_identical_witness :
  hparams config_performance
  = {| batch_size := 64;
       rnn_layer_sizes := [512; 512; 512];
       dropout_keep_prob := 1.0%float;
       clip_norm := 3;
       learning_rate := 0.001%float |} /\
  hparams config_performance = hparams config_performance_with_dynamics.
Proof.
  destruct (registry_hparams_identical
              "performance" "performance_with_dynamics"
              config_performance config_performance_with_dynamics
              eq_refl eq_refl) as (Hbag & Hsame & _).
  split; [exact Hbag | exact Hsame].
Defined.

(** * Further properties of the control sequence *)

(** With a conditioning value given, both chains repeat one and the same
    per-step value, whatever the step count. *)
Lemma control_events_uniform (d h : pyobj) :
  d <> PyNone \/ h <> PyNone ->
  exists v,
    (v = PyTuple [d; h] \/ v = d \/ v = h) /\
    v <> PyNone /\
    forall N : Z,
      generate_performance_control_events N d h
      = PyList (replicate (Z.to_nat N) v).
Proof.
  intros Hgiven. unfold generate_performance_control_events.
  destruct (is_not_None d) eqn:Ed, (is_not_None h) eqn:Eh; cbn [andb].
  - exists (PyTuple [d; h]). split; [tauto | split; [discriminate |]].
    intros N. now rewrite list_mul_singleton.
  - exists d. split; [tauto | split].
    + intros ->. discriminate.
    + intros N. now rewrite list_mul_singleton.
  - exists h. split; [tauto | split].
    + intros ->. discriminate.
    + intros N. now rewrite list_mul_singleton.
  - apply is_not_None_false in Ed, Eh. tauto.
Qed.

(** X1. With at least one conditioning value given, and for every integer
    step count [N], also zero and negative, the control sequence is a list
    of exactly [max(0, N)] copies of one value, which is the pair, the
    density or the histogram and is never [None]; at the evaluation site
    the count is [len(sequence)]. *)
Theorem control_sequence_length_any_steps
    (N : Z) (d h : pyobj) (sequence : Performance) :
  d <> PyNone \/ h <> PyNone ->
  exists v l l',
    (v = PyTuple [d; h] \/ v = d \/ v = h) /\ v <> PyNone /\
    generate_performance_control_events N d h = PyList l /\
    len l = Z.max 0 N /\ Forall (fun e => e = v) l /\
    performance_log_likelihood_control_events sequence d h = PyList l' /\
    len l' = len sequence /\ Forall (fun e => e = v) l'.
Proof.
  intros Hgiven.
  destruct (control_events_uniform d h Hgiven) as (v & Hv & Hnone & Hce).
  exists v, (replicate (Z.to_nat N) v), (replicate (length sequence) v).
  repeat split; try assumption.
  - apply Hce.
  - unfold len. rewrite length_replicate. lia.
  - apply Forall_forall. intros e He. now apply elem_of_replicate_inv in He.
  - rewrite likelihood_control_as_generate, Hce.
    unfold len. now rewrite Nat2Z.id.
  - unfold len. now rewrite length_replicate.
  - apply Forall_forall. intros e He. now apply elem_of_replicate_inv in He.
Qed.

(** X2. At either call site the control sequence is [None] exactly when
    both conditioning values are [None]: a conditioned call never passes
    [None], not even for zero steps. *)
Theorem control_is_None_iff
    (N : Z) (d h : pyobj) (sequence : Performance) :
  (generate_performance_control_events N d h = PyNone
   <-> d = PyNone /\ h = PyNone) /\
  (performance_log_likelihood_control_events sequence d h = PyNone
   <-> d = PyNone /\ h = PyNone).
Proof.
  assert (G : forall n, generate_performance_control_events n d h = PyNone
                        <-> d = PyNone /\ h = PyNone).
  { intros n. split.
    - unfold generate_performance_control_events.
      destruct (is_not_None d) eqn:Ed, (is_not_None h) eqn:Eh; cbn [andb];
        try discriminate.
      intros _. split; now apply is_not_None_false.
    - intros [-> ->]. reflexivity. }
  split; [apply G |].
  rewrite likelihood_control_as_generate. apply G.
Qed.

(** X3. With a conditioning value given, a step count of zero or less
    makes [generate_performance] pass the empty list, and an empty
    sequence makes [performance_log_likelihood] pass the empty list; in
    neither case is the argument [None]. *)
Theorem control_sequence_empty_not_None
    (N : Z) (d h : pyobj) :
  N <= 0 -> d <> PyNone \/ h <> PyNone ->
  generate_performance_control_events N d h = PyList [] /\
  performance_log_likelihood_control_events [] d h = PyList [] /\
  PyList [] <> PyNone.
Proof.
  intros HN Hgiven.
  destruct (control_events_uniform d h Hgiven) as (v & _ & _ & Hce).
  split; [|split].
  - rewrite Hce. replace (Z.to_nat N) with 0%nat by lia. reflexivity.
  - rewrite likelihood_control_as_generate, Hce. reflexivity.
  - discriminate.
Qed.

(** X4. With a conditioning value given, the control sequence for
    [n + m] steps ([n], [m] not negative) is the one for [n] steps
    followed by the one for [m] steps, and the control sequence for two
    performances joined is the two control sequences joined. *)
Theorem control_sequence_splits
    (n m : Z) (d h : pyobj) (s1 s2 : Performance) :
  0 <= n -> 0 <= m -> d <> PyNone \/ h <> PyNone ->
  (exists l1 l2,
      generate_performance_control_events n d h = PyList l1 /\
      generate_performance_control_events m d h = PyList l2 /\
      generate_performance_control_events (n + m) d h
      = PyList (l1 ++ l2)%list) /\
  (exists l1 l2,
      performance_log_likelihood_control_events s1 d h = PyList l1 /\
      performance_log_likelihood_control_events s2 d h = PyList l2 /\
      performance_log_likelihood_control_events (s1 ++ s2)%list d h
      = PyList (l1 ++ l2)%list).
Proof.
  intros Hn Hm Hgiven.
  destruct (control_events_uniform d h Hgiven) as (v & _ & _ & Hce).
  split.
  - exists (replicate (Z.to_nat n) v), (replicate (Z.to_nat m) v).
    rewrite !Hce. repeat split.
    rewrite Z2Nat.inj_add by assumption. now rewrite replicate_add.
  - exists (replicate (length s1) v), (replicate (length s2) v).
    rewrite !likelihood_control_as_generate, !Hce.
    unfold len. rewrite !Nat2Z.id, length_app, replicate_add.
    repeat split.
Qed.

(** * Further properties of the two methods *)

Section Methods.

Context {Self : Type} `{EventSequenceRnnModel Self}.

(** X5. [performance_log_likelihood] takes element [0] of whatever list
    the evaluator returns: on an empty list it raises [IndexError], after
    the evaluator has run and changed the model; on a list of several
    results it returns the first and drops the rest. *)
Theorem log_likelihood_takes_first_result
    (sequence : Performance) (note_density pitch_histogram : pyobj)
    (w : world Self) :
  let control_events :=
    performance_log_likelihood_control_events sequence note_density
                                              pitch_histogram in
  let evaluated :=
    _evaluate_log_likelihood [sequence] control_events (self w) in
  let after :=
    performance_log_likelihood sequence note_density pitch_histogram w in
  (fst evaluated = Returns [] ->
   after
   = (Raises IndexError,
      World (snd evaluated)
        (calls w ++
         [Call_evaluate_log_likelihood [sequence] control_events]))) /\
  (forall r rest, fst evaluated = Returns (r :: rest) ->
                  fst after = Returns r).
Proof.
  intros control_events evaluated after. subst after.
  rewrite performance_log_likelihood_unfold.
  fold control_events. fold evaluated. split.
  - intros ->. reflexivity.
  - intros r rest ->. reflexivity.
Qed.

(** X6. Generating a performance and then evaluating it under the same
    conditioning.  When the generator raises, the error comes out and the
    evaluator is never called.  When it returns a performance [p], two
    calls are made, in this order, the evaluator's on the batch [[p]] with
    a control sequence sized to [len(p)]; when [p] has [num_steps] events,
    the evaluator gets the very control sequence the generator got. *)
Theorem generate_then_evaluate
    (num_steps : Z) (primer_sequence : Performance) (temperature : float)
    (beam_size branch_factor steps_per_iteration : Z)
    (note_density pitch_histogram : pyobj) (w : world Self) :
  let control_events :=
    generate_performance_control_events num_steps note_density
                                        pitch_histogram in
  let generated :=
    _generate_events num_steps primer_sequence temperature beam_size
      branch_factor steps_per_iteration control_events (self w) in
  let generation :=
    Call_generate_events num_steps primer_sequence temperature beam_size
      branch_factor steps_per_iteration control_events in
  let after :=
    (p <- generate_performance num_steps primer_sequence temperature
            beam_size branch_factor steps_per_iteration note_density
            pitch_histogram ;;
     performance_log_likelihood p note_density pitch_histogram) w in
  (forall e, fst generated = Raises e ->
             after
             = (Raises e, World (snd generated) (calls w ++ [generation]))) /\
  (forall p, fst generated = Returns p ->
             calls (snd after)
             = (calls w ++
                [generation;
                 Call_evaluate_log_likelihood [p]
                   (generate_performance_control_events (len p) note_density
                                                        pitch_histogram)])%list) /\
  (forall p, fst generated = Returns p -> len p = num_steps ->
             calls (snd after)
             = (calls w ++
                [generation;
                 Call_evaluate_log_likelihood [p] control_events])%list).
Proof.
  intros control_events generated generation after.
  assert (Hp : forall p, fst generated = Returns p ->
             calls (snd after)
             = (calls w ++
                [generation;
                 Call_evaluate_log_likelihood [p]
                   (generate_performance_control_events (len p) note_density
                                                        pitch_histogram)])%list).
  { intros p Hgen. subst after. unfold bind.
    rewrite generate_performance_unfold.
    fold control_events. fold generated. fold generation.
    rewrite Hgen, performance_log_likelihood_unfold.
    cbn [snd calls]. rewrite <- app_assoc. reflexivity. }
  split; [|split].
  - intros e Hgen. subst after. unfold bind.
    rewrite generate_performance_unfold.
    fold control_events. fold generated. fold generation.
    now rewrite Hgen.
  - exact Hp.
  - intros p Hgen <-. now apply Hp.
Qed.

(** X7. Called with its two positional arguments only,
    [generate_performance] calls the generator with temperature [1.0],
    beam size [1], branch factor [1], one step per iteration and no
    control sequence; [performance_log_likelihood] called with the
    sequence only passes no control sequence either.  Passing [None] for
    a conditioning keyword is the same as leaving it out. *)
Theorem keyword_defaults
    (num_steps : Z) (primer_sequence sequence : Performance)
    (temperature : kwarg float)
    (beam_size branch_factor steps_per_iteration : kwarg Z)
    (w : world Self) :
  calls (snd (generate_performance_call num_steps primer_sequence
                Omitted Omitted Omitted Omitted Omitted Omitted w))
  = (calls w ++
     [Call_generate_events num_steps primer_sequence 1.0%float 1 1 1
        PyNone])%list /\
  calls (snd (performance_log_likelihood_call sequence Omitted Omitted w))
  = (calls w ++ [Call_evaluate_log_likelihood [sequence] PyNone])%list /\
  generate_performance_call num_steps primer_sequence temperature beam_size
    branch_factor steps_per_iteration (Passed PyNone) (Passed PyNone) w
  = generate_performance_call num_steps primer_sequence temperature beam_size
      branch_factor steps_per_iteration Omitted Omitted w /\
  performance_log_likelihood_call sequence (Passed PyNone) (Passed PyNone) w
  = performance_log_likelihood_call sequence Omitted Omitted w.
Proof.
  unfold generate_performance_call, performance_log_likelihood_call.
  cbn [kwarg_value]. repeat split.
  - now rewrite generate_performance_unfold.
  - now rewrite performance_log_likelihood_unfold.
Qed.

End Methods.

(** * Further properties of the registry *)

Lemma lookup_registered_entry (name : string) (c : PerformanceRnnConfig) :
  default_configs !! name = Some c ->
  (name = "performance" /\ c = config_performance) \/
  (name = "performance_with_dynamics" /\
   c = config_performance_with_dynamics) \/
  (name = "density_conditioned_performance_with_dynamics" /\
   c = config_density_conditioned_performance_with_dynamics) \/
  (name = "pitch_conditioned_performance_with_dynamics" /\
   c = config_pitch_conditioned_performance_with_dynamics) \/
  (name = "multiconditioned_performance_with_dynamics" /\
   c = config_multiconditioned_performance_with_dynamics).
Proof.
  unfold default_configs. intros Hc.
  repeat (apply lookup_insert_Some in Hc as [[<- <-] | [_ Hc]]; [tauto |]).
  now rewrite lookup_empty in Hc.
Qed.

(** X8. Every configuration is registered under its own generator id:
    when a name is found in the registry, the [id] of the entry's details
    is that name, the name is one of the five, and no other name leads to
    the same configuration. *)
Theorem registry_key_is_generator_id
    (name : string) (c : PerformanceRnnConfig) :
  default_configs !! name = Some c ->
  id (details c) = name /\
  name ∈ registered_names /\
  dict_getitem default_configs name = Returns c /\
  forall name', default_configs !! name' = Some c -> name' = name.
Proof.
  intros Hc.
  assert (Hid : forall n c', default_configs !! n = Some c' ->
                             id (details c') = n).
  { intros n c' Hn.
    destruct (lookup_registered_entry n c' Hn)
      as [[-> ->] | [[-> ->] | [[-> ->] | [[-> ->] | [-> ->]]]]];
      reflexivity. }
  split; [now apply Hid | split; [|split]].
  - unfold registered_names.
    destruct (lookup_registered_entry name c Hc)
      as [[-> _] | [[-> _] | [[-> _] | [[-> _] | [-> _]]]]];
      set_solver.
  - unfold dict_getitem. now rewrite Hc.
  - intros name' Hc'. rewrite <- (Hid _ _ Hc'). now apply Hid.
Qed.

(** X9. In every registered configuration the encoder-decoder agrees with
    the feature fields.  The event encoder is a one-hot
    [PerformanceOneHotEncoding], given [num_velocity_bins] when the field
    is not [0] and no argument when it is.  With neither
    [density_bin_ranges] nor [pitch_histogram_window_size] set, that is the
    whole encoder-decoder; otherwise it is wrapped in a conditional
    encoder-decoder whose control encoder is the note-density one-hot
    encoding over the very [density_bin_ranges] of the field, the pitch
    histogram encoder, or the two together in that order. *)
Theorem registry_encoder_matches_fields
    (name : string) (c : PerformanceRnnConfig) :
  default_configs !! name = Some c ->
  exists velocity,
    let events :=
      OneHotEventSequenceEncoderDecoder (PerformanceOneHotEncoding velocity) in
    (velocity = Omitted /\ num_velocity_bins c = 0 \/
     velocity = Passed (num_velocity_bins c) /\ num_velocity_bins c <> 0) /\
    encoder_decoder c
    = match density_bin_ranges c, pitch_histogram_window_size c with
      | None, None => events
      | Some ranges, None =>
          ConditionalEventSequenceEncoderDecoder
            (OneHotEventSequenceEncoderDecoder
               (NoteDensityOneHotEncoding ranges))
            events
      | None, Some _ =>
          ConditionalEventSequenceEncoderDecoder
            PitchHistogramEncoderDecoder events
      | Some ranges, Some _ =>
          ConditionalEventSequenceEncoderDecoder
            (MultipleEventSequenceEncoder
               [OneHotEventSequenceEncoderDecoder
                  (NoteDensityOneHotEncoding ranges);
                PitchHistogramEncoderDecoder])
            events
      end.
Proof.
  intros Hc.
  destruct (lookup_registered name c Hc) as [-> | [-> | [-> | [-> | ->]]]];
    [exists Omitted | exists (Passed 32) ..];
    (split; [| reflexivity]).
  - left. split; reflexivity.
  - right. split; [reflexivity | discriminate].
  - right. split; [reflexivity | discriminate].
  - right. split; [reflexivity | discriminate].
  - right. split; [reflexivity | discriminate].
Qed.

(** * Further concrete runs *)

(** X1, witness: a histogram alone, a negative step count, a sequence of
    three events. *)
Lemma control_sequence_length_any_steps_witness :
  exists v l l',
    (v = PyTuple [PyNone; histogram_C_G] \/ v = PyNone \/ v = histogram_C_G) /\
    v <> PyNone /\
    generate_performance_control_events (-2) PyNone histogram_C_G = PyList l /\
    len l = Z.max 0 (-2) /\ Forall (fun e => e = v) l /\
    performance_log_likelihood_control_events one_note PyNone histogram_C_G
    = PyList l' /\
    len l' = len one_note /\ Forall (fun e => e = v) l'.
Proof.
  apply (control_sequence_length_any_steps (-2) PyNone histogram_C_G one_note).
  right. discriminate.
Defined.

(** X3, witness: a density alone and zero steps. *)
Lemma control_sequence_empty_not_None_witness :
  generate_performance_control_events 0 (PyFloat 4.0) PyNone = PyList [] /\
  performance_log_likelihood_control_events [] (PyFloat 4.0) PyNone
  = PyList [] /\
  PyList [] <> PyNone.
Proof.
  apply (control_sequence_empty_not_None 0 (PyFloat 4.0) PyNone).
  - reflexivity.
  - left. discriminate.
Defined.

(** X4, witness: two and three steps against five; a performance of three
    events joined to one of a single event. *)
Lemma control_sequence_splits_witness :
  (exists l1 l2,
      generate_performance_control_events 2 (PyFloat 4.0) PyNone = PyList l1 /\
      generate_performance_control_events 3 (PyFloat 4.0) PyNone = PyList l2 /\
      generate_performance_control_events (2 + 3) (PyFloat 4.0) PyNone
      = PyList (l1 ++ l2)%list) /\
  (exists l1 l2,
      performance_log_likelihood_control_events one_note (PyFloat 4.0) PyNone
      = PyList l1 /\
      performance_log_likelihood_control_events [NOTE_ON 64] (PyFloat 4.0)
                                                PyNone
      = PyList l2 /\
      performance_log_likelihood_control_events (one_note ++ [NOTE_ON 64])%list
                                                (PyFloat 4.0) PyNone
      = PyList (l1 ++ l2)%list).
Proof.
  apply (control_sequence_splits 2 3 (PyFloat 4.0) PyNone one_note
           [NOTE_ON 64]).
  - discriminate.
  - discriminate.
  - left. discriminate.
Defined.

(** X5, witness: over [failing_model] the evaluator answers with an empty
    list, and the method ends in [IndexError] with the call on record. *)
Lemma log_likelihood_takes_first_result_witness :
  performance_log_likelihood (H := failing_model) one_note PyNone PyNone fresh
  = (Raises IndexError,
     World 1%nat [Call_evaluate_log_likelihood [one_note] PyNone]).
Proof.
  destruct (log_likelihood_takes_first_result (H := failing_model)
              one_note PyNone PyNone fresh) as [Hempty _].
  apply Hempty. reflexivity.
Defined.

(** X6, witness: over [padding_model] the generator returns five events
    for [num_steps = 5], and the evaluator is called on them with the
    control sequence the generator got; over [failing_model] the generator
    raises and the evaluator is not called. *)
Lemma generate_then_evaluate_witness :
  let generated :=
    [NOTE_ON 60; TIME_SHIFT 10; NOTE_OFF 60; TIME_SHIFT 1; TIME_SHIFT 1] in
  let control_events := PyList (replicate 5 (PyFloat 4.0)) in
  calls (snd ((p <- generate_performance (H := padding_model) 5 one_note
                      1.0%float 1 1 1 (PyFloat 4.0) PyNone ;;
               performance_log_likelihood (H := padding_model) p
                 (PyFloat 4.0) PyNone) fresh))
  = [Call_generate_events 5 one_note 1.0%float 1 1 1 control_events;
     Call_evaluate_log_likelihood [generated] control_events] /\
  (p <- generate_performance (H := failing_model) 5 one_note
          1.0%float 1 1 1 (PyFloat 4.0) PyNone ;;
   performance_log_likelihood (H := failing_model) p (PyFloat 4.0) PyNone)
    fresh
  = (Raises (OtherError "SequenceGeneratorError"),
     World 1%nat
       [Call_generate_events 5 one_note 1.0%float 1 1 1 control_events]).
Proof.
  intros generated control_events. split.
  - destruct (generate_then_evaluate (H := padding_model) 5 one_note
                1.0%float 1 1 1 (PyFloat 4.0) PyNone fresh)
      as (_ & _ & Hsame).
    apply (Hsame generated); reflexivity.
  - destruct (generate_then_evaluate (H := failing_model) 5 one_note
                1.0%float 1 1 1 (PyFloat 4.0) PyNone fresh)
      as (Hraise & _).
    apply Hraise. reflexivity.
Defined.

(** X8, witness: the pitch-conditioned entry. *)
Lemma registry_key_is_generator_id_witness :
  id (details config_pitch_conditioned_performance_with_dynamics)
  = "pitch_conditioned_performance_with_dynamics" /\
  "pitch_conditioned_performance_with_dynamics" ∈ registered_names /\
  dict_getitem default_configs "pitch_conditioned_performance_with_dynamics"
  = Returns config_pitch_conditioned_performance_with_dynamics /\
  forall name',
    default_configs !! name'
    = Some config_pitch_conditioned_performance_with_dynamics ->
    name' = "pitch_conditioned_performance_with_dynamics".
Proof.
  apply (registry_key_is_generator_id
           "pitch_conditioned_performance_with_dynamics"
           config_pitch_conditioned_performance_with_dynamics).
  reflexivity.
Defined.

(** X9, witness: the entry conditioned on both density and pitch. *)
Lemma registry_encoder_matches_fields_witness :
  exists velocity,
    (velocity = Omitted /\ 32 = 0 \/ velocity = Passed 32 /\ 32 <> 0) /\
    encoder_decoder config_multiconditioned_performance_with_dynamics
    = ConditionalEventSequenceEncoderDecoder
        (MultipleEventSequenceEncoder
           [OneHotEventSequenceEncoderDecoder
              (NoteDensityOneHotEncoding
                 [1.0; 2.0; 4.0; 8.0; 16.0; 32.0; 64.0]%float);
            PitchHistogramEncoderDecoder])
        (OneHotEventSequenceEncoderDecoder
           (PerformanceOneHotEncoding velocity)).
Proof.
  apply (registry_encoder_matches_fields
           "multiconditioned_performance_with_dynamics"
           config_multiconditioned_performance_with_dynamics).
  reflexivity.
Defined.
